(** * The factory contract of factory-example-js

    A shallow embedding of [contract/src/contract.ts]: the class [HelloNear]
    that stores a compiled contract, deploys it on sub-accounts of itself and
    reconciles the outcome in a callback.

    The contract is written against near-sdk-js.  What it uses of the SDK is
    modelled in the first part of the file: the environment a call reads
    ([near.currentAccountId()], [near.attachedDeposit()], ...), assertions and
    exceptions, the log, the [@call]/[@view] decorators, the [PublicKey]
    constructor and the [NearPromise] builder.  Two things the contract imports are left as parameters of the
    development: the account-id validator [validateAccountId] and the bytes of
    the default contract ([includeBytes] of a wasm file). *)

From Stdlib Require Import ZArith List String Ascii Bool Lia DecimalString.
Import ListNotations.

Local Open Scope string_scope.
Local Open Scope Z_scope.

(** ** Types of the SDK *)

Definition AccountId : Type := string.
Definition Balance : Type := Z.
Definition Gas : Type := Z.

(** [Bytes] of the SDK is a JS string holding one byte per character. *)
Definition Bytes : Type := string.

(** A [PublicKey] object holds the bytes it was built from; it is built by
    [new_PublicKey] below, which checks them. *)
Record PublicKey : Type := build_PublicKey { key_data : string }.

(** ** JavaScript values *)

(** Truthiness of a string: only the empty string is falsy. *)
Definition truthy (s : string) : bool :=
  match s with
  | EmptyString => false
  | String _ _ => true
  end.

(** Truthiness of an optional string parameter ([public_key?: string]):
    [undefined] is falsy, a string is truthy unless it is empty. *)
Definition truthy_opt (s : option string) : bool :=
  match s with
  | None => false
  | Some s => truthy s
  end.

(** A bigint inside a template literal is printed in decimal. *)
Definition show_bigint (n : Z) : string :=
  NilZero.string_of_int (Z.to_int n).

(** ** Module constants of contract.ts *)

Definition NEAR_PER_STORAGE : Balance := 10 ^ 19.
Definition TGAS : Gas := 10 ^ 12.
Definition NO_DEPOSIT : Balance := 0.

(** ** Data model *)

(** The persisted state of the contract: the class has the single field
    [code]. *)
Record HelloNear : Type := build_HelloNear { code : Bytes }.

Record DonationInitArgs : Type := build_DonationInitArgs { beneficiary : string }.

(** The argument object of the callback, [{ account, user, attached }]. *)
Record CallbackArgs : Type :=
  build_CallbackArgs {
    account : AccountId;
    user : AccountId;
    attached : Balance }.

(** [serialize] turns an argument object into the bytes of a function call.
    The encoding is the SDK's; a serialized value is kept here as the object
    that was given to [serialize]. *)
Inductive Serialized : Type :=
| SerializedInitArgs (a : DonationInitArgs)
| SerializedCallbackArgs (a : CallbackArgs).

Class Serializable (A : Type) : Type := serialize : A -> Serialized.

#[export] Instance DonationInitArgs_Serializable : Serializable DonationInitArgs :=
  SerializedInitArgs.
#[export] Instance CallbackArgs_Serializable : Serializable CallbackArgs :=
  SerializedCallbackArgs.

(** ** Promises *)

Inductive PromiseAction : Type :=
| CreateAccount
| Transfer (amount : Balance)
| DeployContract (contract : Bytes)
| FunctionCall (functionName : string) (args : Serialized)
               (amount : Balance) (gas : Gas)
| AddFullAccessKey (publicKey : PublicKey).

(** A promise is a batch of actions on one account; [after] is the promise it
    has been chained behind with [then]. *)
#[local] Set Warnings "-register-all".
Inductive NearPromise : Type :=
| PromiseSingle (accountId : AccountId) (actions : list PromiseAction)
                (after : option NearPromise).

Definition NearPromise_new (accountId : AccountId) : NearPromise :=
  PromiseSingle accountId [] None.

Definition addAction (action : PromiseAction) (p : NearPromise) : NearPromise :=
  match p with
  | PromiseSingle accountId actions after =>
      PromiseSingle accountId (actions ++ [action]) after
  end.

Definition createAccount : NearPromise -> NearPromise :=
  addAction CreateAccount.
Definition transfer (amount : Balance) : NearPromise -> NearPromise :=
  addAction (Transfer amount).
Definition deployContract (contract : Bytes) : NearPromise -> NearPromise :=
  addAction (DeployContract contract).
Definition functionCall (functionName : string) (args : Serialized)
    (amount : Balance) (gas : Gas) : NearPromise -> NearPromise :=
  addAction (FunctionCall functionName args amount gas).
Definition addFullAccessKey (publicKey : PublicKey) : NearPromise -> NearPromise :=
  addAction (AddFullAccessKey publicKey).

(** [p.then(other)] schedules [other] behind [p] and returns [other]. *)
Definition then_ (other : NearPromise) (p : NearPromise) : NearPromise :=
  match other with
  | PromiseSingle accountId actions _ => PromiseSingle accountId actions (Some p)
  end.

Definition promise_account (p : NearPromise) : AccountId :=
  match p with PromiseSingle accountId _ _ => accountId end.
Definition promise_actions (p : NearPromise) : list PromiseAction :=
  match p with PromiseSingle _ actions _ => actions end.
Definition promise_after (p : NearPromise) : option NearPromise :=
  match p with PromiseSingle _ _ after => after end.

(** The batches a returned promise hands to the platform, in the order they
    are scheduled: what a promise was chained after comes first. *)
Fixpoint batches (p : NearPromise) : list (AccountId * list PromiseAction) :=
  match p with
  | PromiseSingle accountId actions after =>
      match after with
      | Some q => batches q
      | None => []
      end ++ [(accountId, actions)]
  end.

(** ** The environment of a call *)

Inductive PromiseResult : Type :=
| NotReady
| Successful (data : Bytes)
| Failed.

Record Env : Type :=
  build_Env {
    currentAccountId : AccountId;
    predecessorAccountId : AccountId;
    attachedDeposit : Balance;
    input : Bytes;
    promiseResults : list PromiseResult }.

(** ** Effects: state, log and exceptions *)

(** A JS [Error] can be caught; a host error ends the call at once. *)
Inductive Failure : Type :=
| Error (message : string)
| HostError (message : string).

Record World : Type :=
  build_World {
    this : HelloNear;
    logs : list string }.

Inductive Outcome (A : Type) : Type :=
| Returns (a : A) (w : World)
| Throws (e : Failure) (w : World).

Arguments Returns {A} a w.
Arguments Throws {A} e w.

Definition M (A : Type) : Type := Env -> World -> Outcome A.

Definition ret {A} (a : A) : M A := fun _ w => Returns a w.

Definition bind {A B} (m : M A) (k : A -> M B) : M B :=
  fun env w =>
    match m env w with
    | Returns a w' => k a env w'
    | Throws e w' => Throws e w'
    end.

Notation "x <- m ;; k" := (bind m (fun x => k))
  (at level 61, m at next level, right associativity).
Notation "m ;; k" := (bind m (fun _ => k))
  (at level 61, right associativity).

Definition throw {A} (e : Failure) : M A := fun _ w => Throws e w.

(** [try { body } catch { handler }]: a thrown [Error] is handled, with the
    effects the body had before it threw kept. *)
Definition try_catch {A} (body handler : M A) : M A :=
  fun env w =>
    match body env w with
    | Throws (Error _) w' => handler env w'
    | o => o
    end.

(** [assert(expression, message)] of the SDK throws
    [Error("assertion failed: " + message)]. *)
Definition assert (expression : bool) (message : string) : M unit :=
  if expression then ret tt else throw (Error ("assertion failed: " ++ message)).

Definition near_currentAccountId : M AccountId :=
  fun env w => Returns (currentAccountId env) w.
Definition near_predecessorAccountId : M AccountId :=
  fun env w => Returns (predecessorAccountId env) w.
Definition near_attachedDeposit : M Balance :=
  fun env w => Returns (attachedDeposit env) w.
Definition near_input : M Bytes :=
  fun env w => Returns (input env) w.

Definition near_log (message : string) : M unit :=
  fun _ w => Returns tt (build_World (this w) (logs w ++ [message])).

(** [near.promiseResult(i)] returns the data of a successful result and throws
    on one that is not; an index with no result is an error of the host. *)
Definition near_promiseResult (i : nat) : M Bytes :=
  fun env w =>
    match nth_error (promiseResults env) i with
    | Some (Successful data) => Returns data w
    | Some NotReady => Throws (Error "Promise result NotReady") w
    | Some Failed => Throws (Error "Promise result Failed") w
    | None => Throws (HostError "Invalid promise result index") w
    end.

Definition get_this : M HelloNear := fun _ w => Returns (this w) w.
Definition set_code (c : Bytes) : M unit :=
  fun _ w => Returns tt (build_World (build_HelloNear c) (logs w)).

(** ** Public keys *)

Definition UnknownCurve : Failure := Error "Unknown curve".
Definition InvalidLengthError (length : nat) : Failure :=
  Error ("Invalid length: " ++ show_bigint (Z.of_nat length)).

(** The number of key bytes of a curve: 32 for ed25519 (type 0), 64 for
    secp256k1 (type 1); there is no other curve. *)
Definition data_len (curve_type : option nat) : option nat :=
  match curve_type with
  | Some 0%nat => Some 32%nat
  | Some 1%nat => Some 64%nat
  | _ => None
  end.

(** [data.charCodeAt(0)], which is no number for the empty string. *)
Definition curve_type (data : Bytes) : option nat :=
  match data with
  | EmptyString => None
  | String c _ => Some (nat_of_ascii c)
  end.

(** The check of [new PublicKey(data)]: the first byte of [data] names the
    curve and the bytes of the key follow it; anything else is refused. *)
Definition check_PublicKey (data : Bytes) : Failure + PublicKey :=
  match data_len (curve_type data) with
  | None => inl UnknownCurve
  | Some curve_len =>
      if (String.length data =? curve_len + 1)%nat
      then inr (build_PublicKey data)
      else inl (InvalidLengthError (String.length data))
  end.

Definition new_PublicKey (data : Bytes) : M PublicKey :=
  fun _ w =>
    match check_PublicKey data with
    | inr key => Returns key w
    | inl e => Throws e w
    end.

(** ** Decorators *)

Record CallOptions : Type :=
  build_CallOptions {
    privateFunction : bool;
    payableFunction : bool }.

(** [@call({ privateFunction, payableFunction })]: a private function is only
    run for the contract itself, a function that is not payable only without
    a deposit. *)
Definition call {A} (options : CallOptions) (method : M A) : M A :=
  fun env w =>
    if privateFunction options
       && negb (predecessorAccountId env =? currentAccountId env)%string
    then Throws (Error "Function is private") w
    else if negb (payableFunction options) && (0 <? attachedDeposit env)
    then Throws (Error "Function is not payable") w
    else method env w.

(** [@view({})] adds no check. *)
Definition view {A} (method : M A) : M A := method.

(** ** The contract *)

Section Contract.

(** [validateAccountId] of near-sdk-js. *)
Variable validateAccountId : AccountId -> bool.

(** [includeBytes("./donation-contract/donation.wasm")]. *)
Variable DEFAULT_CONTRACT : Bytes.

(** The state of a contract that has not been called yet: the field
    initialiser [code: string = DEFAULT_CONTRACT]. *)
Definition initial_state : HelloNear := build_HelloNear DEFAULT_CONTRACT.

Definition update_stored_contract : M unit :=
  call (build_CallOptions true false)
    (input <- near_input ;;
     assert (truthy input) "Error: No input" ;;
     set_code input).

Definition get_code : M Bytes :=
  view (this <- get_this ;; ret (code this)).

(** The locals [contractBytes] and [minimumNeeded] of
    [create_factory_subaccount_and_deploy]; the rate is [NEAR_PER_STORAGE]
    in the contract. *)
Definition contractBytes (this : HelloNear) : nat :=
  String.length (code this).

Definition minimumNeeded (costPerByte : Balance) (this : HelloNear) : Balance :=
  costPerByte * Z.of_nat (contractBytes this).

(** [create_factory_subaccount_and_deploy], with the module constant
    [NEAR_PER_STORAGE] taken as the argument [costPerByte], so that the same
    code can be run at another rate. *)
Definition create_factory_subaccount_and_deploy_at (costPerByte : Balance)
    (name : string) (beneficiary : AccountId) (public_key : option string)
    : M NearPromise :=
  call (build_CallOptions false true)
    (currentAccount <- near_currentAccountId ;;
     let subaccount := name ++ "." ++ currentAccount in
     assert (validateAccountId subaccount) "Invalid subaccount" ;;
     attached <- near_attachedDeposit ;;
     this <- get_this ;;
     let minimumNeeded := minimumNeeded costPerByte this in
     assert (minimumNeeded <=? attached)
            ("Attach at least " ++ show_bigint minimumNeeded ++ " yⓃ") ;;
     let initArgs := build_DonationInitArgs beneficiary in
     let promise :=
       functionCall "init" (serialize initArgs) NO_DEPOSIT (TGAS * 5)
         (deployContract (code this)
           (transfer attached
             (createAccount (NearPromise_new subaccount)))) in
     promise <-
       match public_key with
       | Some k =>
           if truthy k
           then (key <- new_PublicKey k ;; ret (addFullAccessKey key promise))
           else ret promise
       | None => ret promise
       end ;;
     user <- near_predecessorAccountId ;;
     let callbackArgs := build_CallbackArgs subaccount user attached in
     ret (then_
            (functionCall "create_factory_subaccount_and_deploy_callback"
               (serialize callbackArgs) NO_DEPOSIT (TGAS * 5)
               (NearPromise_new currentAccount))
            promise)).

Definition create_factory_subaccount_and_deploy
    : string -> AccountId -> option string -> M NearPromise :=
  create_factory_subaccount_and_deploy_at NEAR_PER_STORAGE.

Definition create_factory_subaccount_and_deploy_callback (args : CallbackArgs)
    : M bool :=
  call (build_CallOptions true false)
    (try_catch
       (near_promiseResult 0 ;;
        near_log ("Correctly created and deployed to " ++ account args) ;;
        ret true)
       (near_log ("Error creating " ++ account args ++ ", returning "
                  ++ show_bigint (attached args) ++ "yⓃ to " ++ user args) ;;
        ret false)).

(** ** Running the contract *)

(** The exported methods with their arguments. *)
Inductive Msg : Type :=
| msg_update_stored_contract
| msg_get_code
| msg_create_factory_subaccount_and_deploy
    (name : string) (beneficiary : AccountId) (public_key : option string)
| msg_create_factory_subaccount_and_deploy_callback (args : CallbackArgs).

Inductive ReturnValue : Type :=
| ReturnVoid
| ReturnBytes (b : Bytes)
| ReturnBool (b : bool)
| ReturnPromise (p : NearPromise).

Definition run_method (msg : Msg) : M ReturnValue :=
  match msg with
  | msg_update_stored_contract =>
      update_stored_contract ;; ret ReturnVoid
  | msg_get_code =>
      c <- get_code ;; ret (ReturnBytes c)
  | msg_create_factory_subaccount_and_deploy name beneficiary public_key =>
      p <- create_factory_subaccount_and_deploy name beneficiary public_key ;;
      ret (ReturnPromise p)
  | msg_create_factory_subaccount_and_deploy_callback args =>
      b <- create_factory_subaccount_and_deploy_callback args ;;
      ret (ReturnBool b)
  end.

(** What a call leaves behind.  The state is written back only when the
    method returns; a promise is scheduled only when it is returned. *)
Record Receipt : Type :=
  build_Receipt {
    status : Failure + ReturnValue;
    state_after : HelloNear;
    logs_emitted : list string }.

Definition execute (env : Env) (state : HelloNear) (msg : Msg) : Receipt :=
  match run_method msg env (build_World state []) with
  | Returns v w => build_Receipt (inr v) (this w) (logs w)
  | Throws e w => build_Receipt (inl e) state (logs w)
  end.

Definition scheduled (r : Receipt) : list (AccountId * list PromiseAction) :=
  match status r with
  | inr (ReturnPromise p) => batches p
  | _ => []
  end.

(** The states the contract can be in: the initial one, and any state a
    call leaves behind. *)
Inductive reachable : HelloNear -> Prop :=
| reachable_initial : reachable initial_state
| reachable_call (env : Env) (state : HelloNear) (msg : Msg) :
    reachable state -> reachable (state_after (execute env state msg)).

End Contract.

(** ** The account-id rules of near-sdk-js *)

Module NearSdk.

(** [[a-z\d]] *)
Definition is_alnum (c : ascii) : bool :=
  let n := nat_of_ascii c in
  ((97 <=? n) && (n <=? 122) || (48 <=? n) && (n <=? 57))%nat.

(** [[-_]] and the dot between the parts of a name. *)
Definition is_separator (c : ascii) : bool :=
  ((c =? "-") || (c =? "_") || (c =? "."))%char.

(** The pattern [^(([a-z\d]+[-_])*[a-z\d]+\.)*([a-z\d]+[-_])*[a-z\d]+$]:
    runs of lower-case letters and digits with a single separator between
    two runs.  [after_alnum] tells whether the character read last was a
    letter or a digit. *)
Fixpoint matches_account_id (after_alnum : bool) (s : string) : bool :=
  match s with
  | EmptyString => after_alnum
  | String c rest =>
      if is_alnum c then matches_account_id true rest
      else if is_separator c then after_alnum && matches_account_id false rest
      else false
  end.

(** [validateAccountId]: between 2 and 64 characters, and of the pattern. *)
Definition validateAccountId (accountId : AccountId) : bool :=
  ((2 <=? String.length accountId) && (String.length accountId <=? 64))%nat
  && matches_account_id false accountId.

(** The characters an account id is made of. *)
Definition is_allowed (c : ascii) : bool := is_alnum c || is_separator c.

Fixpoint all_allowed (s : string) : bool :=
  match s with
  | EmptyString => true
  | String c rest => is_allowed c && all_allowed rest
  end.

Fixpoint contains_dot (s : string) : bool :=
  match s with
  | EmptyString => false
  | String c rest => (c =? ".")%char || contains_dot rest
  end.

End NearSdk.

(** ** Sample data *)

(** A payload of [n] zero bytes. *)
Fixpoint zero_bytes (n : nat) : Bytes :=
  match n with
  | O => EmptyString
  | S n => String zero (zero_bytes n)
  end.

(** The eight bytes every wasm module starts with. *)
Definition wasm_header : Bytes :=
  String zero ("asm" ++ String one (zero_bytes 3)).

(** An ed25519 key as [new PublicKey] takes it: the curve byte 0 and 32
    bytes of key. *)
Definition ed25519_key : Bytes := String zero (zero_bytes 32).

(** The requests of the scenarios: [alice.test] calls the factory
    [factory.test], which stores a payload of 1000 bytes. *)
Definition scenario_env (attached : Balance) : Env :=
  build_Env "factory.test" "alice.test" attached "" [].

Definition scenario_state : HelloNear := build_HelloNear (zero_bytes 1000).

(** The callback as the platform runs it behind the batch of the scenario. *)
Definition scenario_callback_env (result : PromiseResult) : Env :=
  build_Env "factory.test" "factory.test" NO_DEPOSIT "" [result].

Definition scenario_callback_args : CallbackArgs :=
  build_CallbackArgs "sub.factory.test" "alice.test" 10000.

(** ** The failures of the specification *)

(** The specification names the failures; in the contract they are the
    error of the decorator and the errors of the three assertions. *)
Definition AuthorizationError : Failure := Error "Function is private".
Definition EmptyInputError : Failure :=
  Error "assertion failed: Error: No input".
Definition InvalidNameError : Failure :=
  Error "assertion failed: Invalid subaccount".
Definition InsufficientFundsError (required : Balance) : Failure :=
  Error ("assertion failed: Attach at least " ++ show_bigint required ++ " yⓃ").

Definition world_of {A} (o : Outcome A) : World :=
  match o with
  | Returns _ w => w
  | Throws _ w => w
  end.

Definition is_successful (r : PromiseResult) : bool :=
  match r with
  | Successful _ => true
  | _ => false
  end.

(** The two records the callback can log. *)
Definition success_record (args : CallbackArgs) : string :=
  "Correctly created and deployed to " ++ account args.
Definition failure_record (args : CallbackArgs) : string :=
  "Error creating " ++ account args ++ ", returning "
  ++ show_bigint (attached args) ++ "yⓃ to " ++ user args.

(** What [new PublicKey(public_key)] throws in
    [create_factory_subaccount_and_deploy], if it is reached and throws:
    nothing without a key or with the empty string, which is not truthy. *)
Definition key_failure (public_key : option string) : option Failure :=
  match public_key with
  | Some k =>
      if truthy k
      then match check_PublicKey k with
           | inl e => Some e
           | inr _ => None
           end
      else None
  | None => None
  end.

(** The key action [create_factory_subaccount_and_deploy] adds to the batch
    when it gets that far: one when [public_key] is truthy, none
    otherwise. *)
Definition key_grant (public_key : option string) : list PromiseAction :=
  match public_key with
  | Some k => if truthy k then [AddFullAccessKey (build_PublicKey k)] else []
  | None => []
  end.

(** The promise [create_factory_subaccount_and_deploy] returns when both
    assertions pass and the key, if there is one, is accepted: the call of the callback on the contract itself, chained
    behind the batch on the sub-account. *)
Definition dispatched (env : Env) (this : HelloNear)
    (name : string) (beneficiary : AccountId) (public_key : option string)
    : NearPromise :=
  let subaccount := name ++ "." ++ currentAccountId env in
  PromiseSingle (currentAccountId env)
    [FunctionCall "create_factory_subaccount_and_deploy_callback"
       (serialize (build_CallbackArgs subaccount (predecessorAccountId env)
                     (attachedDeposit env)))
       NO_DEPOSIT (TGAS * 5)]
    (Some (PromiseSingle subaccount
             ([CreateAccount;
               Transfer (attachedDeposit env);
               DeployContract (code this);
               FunctionCall "init" (serialize (build_DonationInitArgs beneficiary))
                 NO_DEPOSIT (TGAS * 5)]
              ++ key_grant public_key)
             None)).

(** ** Sequences of calls and the deposits of a receipt *)

(** The state after a sequence of calls, each with its own environment. *)
Fixpoint run_calls (validateAccountId : AccountId -> bool)
    (calls : list (Env * Msg)) (state : HelloNear) : HelloNear :=
  match calls with
  | [] => state
  | (env, msg) :: rest =>
      run_calls validateAccountId rest
        (state_after (execute validateAccountId env state msg))
  end.

(** The amount an action takes with it: what [transfer] sends and what a
    function call attaches. *)
Definition action_deposit (action : PromiseAction) : Balance :=
  match action with
  | Transfer amount => amount
  | FunctionCall _ _ amount _ => amount
  | _ => 0
  end.

Definition batch_deposit (actions : list PromiseAction) : Balance :=
  fold_right (fun action total => action_deposit action + total) 0 actions.

Definition scheduled_deposit (r : Receipt) : Balance :=
  fold_right (fun batch total => batch_deposit (snd batch) + total) 0
    (scheduled r).

(** * Properties *)

(** ** Truthiness *)

Lemma truthy_false_iff (s : string) : truthy s = false <-> s = "".
Proof. destruct s; simpl; split; intros H; congruence. Qed.

Lemma truthy_true_iff (s : string) : truthy s = true <-> s <> "".
Proof. destruct s; simpl; split; intros H; congruence. Qed.

Lemma truthy_length (s : string) : truthy s = true <-> (0 < String.length s)%nat.
Proof. destruct s; simpl; split; intros H; try congruence; lia. Qed.

Section Properties.

Variable validateAccountId : AccountId -> bool.

(** ** The three gates of [create_factory_subaccount_and_deploy] *)

(** The method as a decision list: name, then funds, then the promise. *)
Lemma create_at_cases costPerByte name beneficiary public_key env w :
  create_factory_subaccount_and_deploy_at validateAccountId costPerByte
    name beneficiary public_key env w =
  if validateAccountId (name ++ "." ++ currentAccountId env)
  then if minimumNeeded costPerByte (this w) <=? attachedDeposit env
       then match key_failure public_key with
            | None => Returns (dispatched env (this w) name beneficiary public_key) w
            | Some e => Throws e w
            end
       else Throws (InsufficientFundsError (minimumNeeded costPerByte (this w))) w
  else Throws InvalidNameError w.
Proof.
  unfold create_factory_subaccount_and_deploy_at, call, bind, assert,
    near_currentAccountId, near_attachedDeposit, near_predecessorAccountId,
    get_this, new_PublicKey, ret, throw.
  cbn [privateFunction payableFunction andb negb].
  destruct (validateAccountId _); [|reflexivity].
  destruct (_ <=? _); [|reflexivity].
  unfold dispatched, key_grant, key_failure.
  destruct public_key as [k|]; [destruct (truthy k)|]; try reflexivity.
  unfold check_PublicKey.
  destruct (data_len (curve_type k)) as [curve_len|]; [|reflexivity].
  destruct (_ =? _)%nat; reflexivity.
Qed.

Lemma execute_create env state name beneficiary public_key :
  execute validateAccountId env state
    (msg_create_factory_subaccount_and_deploy name beneficiary public_key) =
  if validateAccountId (name ++ "." ++ currentAccountId env)
  then if minimumNeeded NEAR_PER_STORAGE state <=? attachedDeposit env
       then match key_failure public_key with
            | None =>
                build_Receipt
                  (inr (ReturnPromise
                          (dispatched env state name beneficiary public_key)))
                  state []
            | Some e => build_Receipt (inl e) state []
            end
       else build_Receipt
              (inl (InsufficientFundsError (minimumNeeded NEAR_PER_STORAGE state)))
              state []
  else build_Receipt (inl InvalidNameError) state [].
Proof.
  unfold execute, run_method, bind, create_factory_subaccount_and_deploy.
  rewrite create_at_cases. cbn [this].
  destruct (validateAccountId _); [|reflexivity].
  destruct (_ <=? _); [|reflexivity].
  destruct (key_failure public_key); reflexivity.
Qed.

Lemma batches_dispatched env state name beneficiary public_key :
  batches (dispatched env state name beneficiary public_key) =
  [(name ++ "." ++ currentAccountId env,
    ([CreateAccount; Transfer (attachedDeposit env); DeployContract (code state);
      FunctionCall "init" (serialize (build_DonationInitArgs beneficiary))
        NO_DEPOSIT (TGAS * 5)] ++ key_grant public_key)%list);
   (currentAccountId env,
    [FunctionCall "create_factory_subaccount_and_deploy_callback"
       (serialize (build_CallbackArgs (name ++ "." ++ currentAccountId env)
                     (predecessorAccountId env) (attachedDeposit env)))
       NO_DEPOSIT (TGAS * 5)])].
Proof. reflexivity. Qed.

Lemma key_grant_In public_key :
  (exists k, In (AddFullAccessKey k) (key_grant public_key))
  <-> truthy_opt public_key = true.
Proof.
  unfold key_grant, truthy_opt.
  destruct public_key as [k|]; [destruct (truthy k)|]; cbn; split;
    try reflexivity; try discriminate.
  - intros _. exists (build_PublicKey k). now left.
  - intros [k' []].
  - intros [k' []].
Qed.

Lemma key_failure_None_iff public_key :
  key_failure public_key = None
  <-> public_key = None
      \/ public_key = Some ""
      \/ exists c rest,
           public_key = Some (String c rest)
           /\ ((nat_of_ascii c = 0%nat /\ String.length rest = 32%nat)
               \/ (nat_of_ascii c = 1%nat /\ String.length rest = 64%nat)).
Proof.
  unfold key_failure. destruct public_key as [[|c rest]|]; cbn [truthy].
  - split; auto.
  - unfold check_PublicKey. cbn [curve_type data_len String.length].
    destruct (nat_of_ascii c) as [|[|n]] eqn:Hc; cbn [data_len].
    + change (32 + 1)%nat with (S 32). cbn [Nat.eqb].
      destruct (Nat.eqb_spec (String.length rest) 32) as [Hl|Hl].
      * split; auto. intros _. right. right. exists c, rest. auto.
      * split; [discriminate|].
        intros [H|[H|(c' & rest' & H & [[_ H']|[H' _]])]];
          try discriminate; injection H as <- <-; congruence.
    + change (64 + 1)%nat with (S 64). cbn [Nat.eqb].
      destruct (Nat.eqb_spec (String.length rest) 64) as [Hl|Hl].
      * split; auto. intros _. right. right. exists c, rest. auto.
      * split; [discriminate|].
        intros [H|[H|(c' & rest' & H & [[H' _]|[_ H']])]];
          try discriminate; injection H as <- <-; congruence.
    + split; [discriminate|].
      intros [H|[H|(c' & rest' & H & [[H' _]|[H' _]])]];
        try discriminate; injection H as <- <-; congruence.
  - split; auto.
Qed.

(** C1 (amended). A request that passes the name check and the funding check
    is dispatched when [new PublicKey] does not throw, that is without
    [public_key], with the empty string, or with a curve byte followed by the
    bytes of a key.  It then schedules one batch on the sub-account
    [name.currentAccount]: create the account, transfer the whole attached
    deposit, deploy the stored code, call [init] with the beneficiary, no
    deposit and the fixed gas of 5 TGAS, and then, exactly when a public key
    was passed, add it as a full access key.  When [new PublicKey] throws,
    the call fails with that error and schedules nothing. *)
Theorem provision_dispatches_ordered_batch env state name beneficiary public_key :
  validateAccountId (name ++ "." ++ currentAccountId env) = true ->
  NEAR_PER_STORAGE * Z.of_nat (String.length (code state)) <= attachedDeposit env ->
  let receipt :=
    execute validateAccountId env state
      (msg_create_factory_subaccount_and_deploy name beneficiary public_key) in
  (key_failure public_key = None ->
   exists key_actions continuation,
     scheduled receipt =
       [(name ++ "." ++ currentAccountId env,
         ([CreateAccount;
           Transfer (attachedDeposit env);
           DeployContract (code state);
           FunctionCall "init" (serialize (build_DonationInitArgs beneficiary))
             NO_DEPOSIT (TGAS * 5)] ++ key_actions)%list);
        continuation]
     /\ key_actions =
        match public_key with
        | Some k => if truthy k then [AddFullAccessKey (build_PublicKey k)] else []
        | None => []
        end
     /\ ((exists k, In (AddFullAccessKey k) key_actions)
         <-> truthy_opt public_key = true)
     /\ NO_DEPOSIT = 0 /\ TGAS * 5 = 5000000000000)
  /\ (forall e,
        key_failure public_key = Some e ->
        status receipt = inl e
        /\ scheduled receipt = []
        /\ state_after receipt = state).
Proof.
  intros Hname Hfunds receipt. subst receipt.
  rewrite execute_create, Hname.
  unfold minimumNeeded, contractBytes.
  apply Z.leb_le in Hfunds. rewrite Hfunds.
  split.
  - intros ->.
    unfold scheduled. cbn [status]. rewrite batches_dispatched.
    eexists; eexists. split; [reflexivity|].
    split; [reflexivity|].
    split; [apply key_grant_In|].
    split; reflexivity.
  - intros e ->. repeat split.
Qed.

(** C2. With a valid name and an attached deposit below the rate times the
    length of the stored code, the method throws "Attach at least N" with N
    that product, and leaves the state and the log as they were; the call
    schedules no promise.  The rate is a parameter here: the contract runs at
    [NEAR_PER_STORAGE], the scenario of the specification at 10. *)
Theorem insufficient_funds_abort costPerByte env w name beneficiary public_key :
  validateAccountId (name ++ "." ++ currentAccountId env) = true ->
  attachedDeposit env < costPerByte * Z.of_nat (String.length (code (this w))) ->
  create_factory_subaccount_and_deploy_at validateAccountId costPerByte
    name beneficiary public_key env w
  = Throws (InsufficientFundsError
              (costPerByte * Z.of_nat (String.length (code (this w))))) w
  /\ (costPerByte = NEAR_PER_STORAGE ->
      let receipt :=
        execute validateAccountId env (this w)
          (msg_create_factory_subaccount_and_deploy name beneficiary public_key) in
      status receipt
      = inl (InsufficientFundsError
               (NEAR_PER_STORAGE * Z.of_nat (String.length (code (this w)))))
      /\ scheduled receipt = []
      /\ state_after receipt = this w).
Proof.
  intros Hname Hfunds.
  assert (Hleb : (minimumNeeded costPerByte (this w) <=? attachedDeposit env) = false).
  { apply Z.leb_gt. exact Hfunds. }
  split.
  - rewrite create_at_cases, Hname, Hleb. reflexivity.
  - intros ->. cbn zeta.
    rewrite execute_create, Hname, Hleb. repeat split.
Qed.

(** ** The name check *)

Lemma invalid_name_throws costPerByte env w name beneficiary public_key :
  validateAccountId (name ++ "." ++ currentAccountId env) = false ->
  create_factory_subaccount_and_deploy_at validateAccountId costPerByte
    name beneficiary public_key env w
  = Throws InvalidNameError w.
Proof. intros H. now rewrite create_at_cases, H. Qed.

Lemma invalid_name_receipt env state name beneficiary public_key :
  validateAccountId (name ++ "." ++ currentAccountId env) = false ->
  execute validateAccountId env state
    (msg_create_factory_subaccount_and_deploy name beneficiary public_key)
  = build_Receipt (inl InvalidNameError) state [].
Proof. intros H. now rewrite execute_create, H. Qed.

End Properties.

(** ** What the SDK's validator rejects *)

Lemma matches_account_id_not_allowed (name : string) :
  NearSdk.all_allowed name = false ->
  forall after_alnum rest,
    NearSdk.matches_account_id after_alnum (name ++ rest) = false.
Proof.
  induction name as [|c name IH]; cbn [NearSdk.all_allowed]; intros H b rest.
  - discriminate.
  - cbn [append NearSdk.matches_account_id].
    unfold NearSdk.is_allowed in H.
    destruct (NearSdk.is_alnum c); cbn [orb andb] in H.
    + now apply IH.
    + destruct (NearSdk.is_separator c); cbn [andb] in H.
      * rewrite (IH H). apply andb_false_r.
      * reflexivity.
Qed.

Lemma validateAccountId_empty_name (currentAccount : AccountId) :
  NearSdk.validateAccountId ("" ++ "." ++ currentAccount) = false.
Proof.
  unfold NearSdk.validateAccountId. cbn [append NearSdk.matches_account_id].
  change (NearSdk.is_alnum ".") with false.
  change (NearSdk.is_separator ".") with true.
  cbn [andb]. apply andb_false_r.
Qed.

Lemma validateAccountId_too_long (accountId : AccountId) :
  (64 < String.length accountId)%nat ->
  NearSdk.validateAccountId accountId = false.
Proof.
  intros H. unfold NearSdk.validateAccountId.
  apply Nat.leb_gt in H. rewrite H.
  now rewrite andb_false_r.
Qed.

Lemma validateAccountId_invalid_character (name currentAccount : string) :
  NearSdk.all_allowed name = false ->
  NearSdk.validateAccountId (name ++ "." ++ currentAccount) = false.
Proof.
  intros H. unfold NearSdk.validateAccountId.
  rewrite (matches_account_id_not_allowed name H). apply andb_false_r.
Qed.

(** C3 (amended). Whenever the validator rejects [name.currentAccount], the
    method throws "Invalid subaccount" whatever is attached and whatever
    code is stored, with state and log untouched and no promise built; and
    the SDK's validator rejects an empty name, a sub-account of more than 64
    characters and a name with a character outside [a-z0-9-_.]. *)
Theorem invalid_name_aborts_first :
  (forall validateAccountId costPerByte env w name beneficiary public_key,
     validateAccountId (name ++ "." ++ currentAccountId env) = false ->
     create_factory_subaccount_and_deploy_at validateAccountId costPerByte
       name beneficiary public_key env w
     = Throws InvalidNameError w
     /\ scheduled
          (execute validateAccountId env (this w)
             (msg_create_factory_subaccount_and_deploy name beneficiary public_key))
        = [])
  /\ (forall name currentAccount,
        name = ""
        \/ (64 < String.length (name ++ "." ++ currentAccount))%nat
        \/ NearSdk.all_allowed name = false ->
        NearSdk.validateAccountId (name ++ "." ++ currentAccount) = false).
Proof.
  split.
  - intros validateAccountId costPerByte env w name beneficiary public_key H.
    split.
    + now apply invalid_name_throws.
    + now rewrite invalid_name_receipt.
  - intros name currentAccount [-> | [H | H]].
    + apply validateAccountId_empty_name.
    + now apply validateAccountId_too_long.
    + now apply validateAccountId_invalid_character.
Qed.

(** The validator is given the joined string only, so it cannot tell a short
    name with a dot under [test] from one without under [factory.test]. *)
Lemma separator_unseen_by_validator (validateAccountId : AccountId -> bool)
    costPerByte beneficiary public_key attached requester w :
  validateAccountId "sub.factory.test" = true ->
  create_factory_subaccount_and_deploy_at validateAccountId costPerByte
    "sub.factory" beneficiary public_key
    (build_Env "test" requester attached "" []) w
  <> Throws InvalidNameError w.
Proof.
  intros H. rewrite create_at_cases.
  change ("sub.factory" ++ "." ++ currentAccountId (build_Env "test" requester attached "" []))
    with "sub.factory.test".
  rewrite H. destruct (_ <=? _); [|discriminate].
  unfold key_failure, check_PublicKey.
  destruct public_key as [k|]; [destruct (truthy k)|]; try discriminate.
  destruct (data_len _); [destruct (_ =? _)%nat|]; discriminate.
Qed.

(** C3 as stated fails for a short name that contains the separator: under
    [factory.test] the short name [my.sub] gives [my.sub.factory.test], a
    well-formed account id, and the request goes through to the promise. *)
Lemma short_name_with_separator_is_dispatched :
  NearSdk.contains_dot "my.sub" = true
  /\ NearSdk.validateAccountId
       ("my.sub" ++ "." ++ currentAccountId (scenario_env (10 ^ 22))) = true
  /\ create_factory_subaccount_and_deploy NearSdk.validateAccountId
       "my.sub" "bob.test" None
       (scenario_env (10 ^ 22)) (build_World scenario_state [])
     = Returns (dispatched (scenario_env (10 ^ 22)) scenario_state
                  "my.sub" "bob.test" None)
         (build_World scenario_state [])
  /\ create_factory_subaccount_and_deploy NearSdk.validateAccountId
       "my.sub" "bob.test" None
       (scenario_env (10 ^ 22)) (build_World scenario_state [])
     <> Throws InvalidNameError (build_World scenario_state []).
Proof.
  split; [reflexivity|]. split; [reflexivity|].
  assert (H : create_factory_subaccount_and_deploy NearSdk.validateAccountId
                "my.sub" "bob.test" None
                (scenario_env (10 ^ 22)) (build_World scenario_state [])
              = Returns (dispatched (scenario_env (10 ^ 22)) scenario_state
                           "my.sub" "bob.test" None)
                  (build_World scenario_state [])).
  { unfold create_factory_subaccount_and_deploy.
    rewrite create_at_cases. vm_compute. reflexivity. }
  split; [exact H|]. rewrite H. discriminate.
Qed.

(** ** The callback *)

Section Reconciler.

Variable validateAccountId : AccountId -> bool.

(** The callback when it runs as the continuation of a batch: called by the
    contract itself, without deposit, with the result of the batch first. *)
Lemma execute_callback env state args result rest :
  predecessorAccountId env = currentAccountId env ->
  attachedDeposit env = NO_DEPOSIT ->
  promiseResults env = result :: rest ->
  execute validateAccountId env state
    (msg_create_factory_subaccount_and_deploy_callback args)
  = build_Receipt (inr (ReturnBool (is_successful result))) state
      [if is_successful result then success_record args else failure_record args].
Proof.
  intros Hself Hdeposit Hresults.
  unfold execute, run_method, create_factory_subaccount_and_deploy_callback,
    call, bind, try_catch, near_promiseResult, near_log, ret.
  cbn [privateFunction payableFunction negb andb this logs].
  rewrite Hself, String.eqb_refl, Hdeposit, Hresults.
  cbn [negb andb nth_error NO_DEPOSIT Z.ltb Z.compare].
  destruct result; reflexivity.
Qed.

(** C4. Run behind a batch, the callback returns [true] and logs the success
    record with the account when the first promise result is successful, and
    returns [false] and logs the failure record with the account, the amount
    and the user when it is not; either way it returns a boolean and does not
    throw. *)
Theorem callback_returns_boolean env state args result rest :
  predecessorAccountId env = currentAccountId env ->
  attachedDeposit env = NO_DEPOSIT ->
  promiseResults env = result :: rest ->
  let receipt :=
    execute validateAccountId env state
      (msg_create_factory_subaccount_and_deploy_callback args) in
  (is_successful result = true ->
   status receipt = inr (ReturnBool true)
   /\ logs_emitted receipt
      = ["Correctly created and deployed to " ++ account args])
  /\ (is_successful result = false ->
      status receipt = inr (ReturnBool false)
      /\ logs_emitted receipt
         = ["Error creating " ++ account args ++ ", returning "
            ++ show_bigint (attached args) ++ "yⓃ to " ++ user args])
  /\ (exists b, status receipt = inr (ReturnBool b))
  /\ (forall e, status receipt <> inl e).
Proof.
  intros Hself Hdeposit Hresults receipt. subst receipt.
  rewrite (execute_callback env state args result rest Hself Hdeposit Hresults).
  cbn [status logs_emitted].
  repeat split.
  - now rewrite H.
  - now rewrite H.
  - now rewrite H.
  - now rewrite H.
  - now exists (is_successful result).
  - discriminate.
Qed.

(** C5. On the failure branch the callback schedules nothing, and so no
    transfer to the user: what it leaves is the one log record, with the
    amount and the user in it, and the state it found. *)
Theorem callback_failure_issues_no_refund env state args result rest :
  predecessorAccountId env = currentAccountId env ->
  attachedDeposit env = NO_DEPOSIT ->
  promiseResults env = result :: rest ->
  is_successful result = false ->
  let receipt :=
    execute validateAccountId env state
      (msg_create_factory_subaccount_and_deploy_callback args) in
  scheduled receipt = []
  /\ (forall accountId actions amount,
        In (accountId, actions) (scheduled receipt) ->
        ~ In (Transfer amount) actions)
  /\ logs_emitted receipt
     = ["Error creating " ++ account args ++ ", returning "
        ++ show_bigint (attached args) ++ "yⓃ to " ++ user args]
  /\ state_after receipt = state
  /\ status receipt = inr (ReturnBool false).
Proof.
  intros Hself Hdeposit Hresults Hfailed receipt. subst receipt.
  rewrite (execute_callback env state args result rest Hself Hdeposit Hresults).
  rewrite Hfailed. unfold scheduled. cbn [status logs_emitted state_after].
  repeat split. intros accountId actions amount [].
Qed.

End Reconciler.

(** ** The continuation *)

Section Continuation.

Variable validateAccountId : AccountId -> bool.

(** C6. The promise a dispatched request returns is the call of the callback
    on the contract itself, without deposit and with 5 TGAS, chained with
    [then] behind the batch on the sub-account; its arguments are [account]
    the sub-account, [user] the predecessor of the request and [attached]
    its deposit, as they were when the request ran.  The platform is handed
    the batch first and the callback second.  A request is dispatched when
    the name is valid, the deposit suffices and [new PublicKey] does not
    throw. *)
Theorem provision_chains_callback env state name beneficiary public_key :
  let receipt :=
    execute validateAccountId env state
      (msg_create_factory_subaccount_and_deploy name beneficiary public_key) in
  let subaccount := name ++ "." ++ currentAccountId env in
  let callback :=
    FunctionCall "create_factory_subaccount_and_deploy_callback"
      (serialize (build_CallbackArgs subaccount (predecessorAccountId env)
                    (attachedDeposit env)))
      NO_DEPOSIT (TGAS * 5) in
  (forall p,
     status receipt = inr (ReturnPromise p) ->
     exists batch_actions,
       p = PromiseSingle (currentAccountId env) [callback]
             (Some (PromiseSingle subaccount batch_actions None))
       /\ scheduled receipt
          = [(subaccount, batch_actions); (currentAccountId env, [callback])])
  /\ (validateAccountId subaccount = true ->
      NEAR_PER_STORAGE * Z.of_nat (String.length (code state)) <= attachedDeposit env ->
      key_failure public_key = None ->
      exists p, status receipt = inr (ReturnPromise p)).
Proof.
  intros receipt subaccount callback. subst receipt subaccount callback.
  rewrite execute_create. unfold minimumNeeded, contractBytes.
  split.
  - intros p.
    destruct (validateAccountId _); [|discriminate].
    destruct (_ <=? _); [|discriminate].
    destruct (key_failure public_key); [discriminate|].
    cbn [status]. intros [= <-].
    unfold scheduled. cbn [status]. rewrite batches_dispatched.
    eexists. split; reflexivity.
  - intros Hname Hfunds Hkey.
    apply Z.leb_le in Hfunds. rewrite Hname, Hfunds, Hkey.
    eexists. reflexivity.
Qed.

End Continuation.

(** ** The minimum deposit *)

Lemma create_at_world (validateAccountId : AccountId -> bool)
    costPerByte name beneficiary public_key env w :
  world_of (create_factory_subaccount_and_deploy_at validateAccountId costPerByte
              name beneficiary public_key env w) = w.
Proof.
  rewrite create_at_cases.
  destruct (validateAccountId _); [|reflexivity].
  destruct (_ <=? _); [|reflexivity].
  destruct (key_failure public_key); reflexivity.
Qed.

(** C7. The minimum the method asks for is [NEAR_PER_STORAGE], the constant
    10^19, times the length of the stored code; it does not decrease when the
    code gets longer; and the method that computes it changes neither the
    state nor the log.  The method only returns a promise when the deposit
    reaches this minimum, and for a valid name and a key that
    [new PublicKey] does not refuse it returns one exactly from this minimum
    on. *)
Theorem minimum_funding_linear_monotone :
  NEAR_PER_STORAGE = 10 ^ 19
  /\ (forall (L : nat) state,
        String.length (code state) = L ->
        minimumNeeded NEAR_PER_STORAGE state = NEAR_PER_STORAGE * Z.of_nat L
        /\ 0 <= minimumNeeded NEAR_PER_STORAGE state)
  /\ (forall state1 state2,
        (String.length (code state1) <= String.length (code state2))%nat ->
        minimumNeeded NEAR_PER_STORAGE state1 <= minimumNeeded NEAR_PER_STORAGE state2)
  /\ (forall validateAccountId name beneficiary public_key env w,
        world_of (create_factory_subaccount_and_deploy validateAccountId
                    name beneficiary public_key env w) = w)
  /\ (forall validateAccountId name beneficiary public_key env w,
        (exists p, create_factory_subaccount_and_deploy validateAccountId
                     name beneficiary public_key env w = Returns p w) ->
        minimumNeeded NEAR_PER_STORAGE (this w) <= attachedDeposit env)
  /\ (forall validateAccountId name beneficiary public_key env w,
        validateAccountId (name ++ "." ++ currentAccountId env) = true ->
        key_failure public_key = None ->
        (exists p, create_factory_subaccount_and_deploy validateAccountId
                     name beneficiary public_key env w = Returns p w)
        <-> minimumNeeded NEAR_PER_STORAGE (this w) <= attachedDeposit env).
Proof.
  split; [reflexivity|].
  split.
  { intros L state <-. unfold minimumNeeded, contractBytes, NEAR_PER_STORAGE.
    split; [reflexivity|lia]. }
  split.
  { intros state1 state2 H. unfold minimumNeeded, contractBytes, NEAR_PER_STORAGE.
    apply Z.mul_le_mono_nonneg_l; lia. }
  split.
  { intros. apply create_at_world. }
  split.
  { intros validateAccountId name beneficiary public_key env w [p Hp].
    unfold create_factory_subaccount_and_deploy in Hp.
    rewrite create_at_cases in Hp.
    destruct (validateAccountId _); [|discriminate].
    destruct (Z.leb_spec (minimumNeeded NEAR_PER_STORAGE (this w))
                (attachedDeposit env)); [assumption|discriminate]. }
  intros validateAccountId name beneficiary public_key env w Hname Hkey.
  unfold create_factory_subaccount_and_deploy.
  rewrite create_at_cases, Hname, Hkey.
  destruct (Z.leb_spec (minimumNeeded NEAR_PER_STORAGE (this w)) (attachedDeposit env)).
  - split; [intros _; assumption|]. intros _. eexists. reflexivity.
  - split; [intros [p Hp]; discriminate|lia].
Qed.

(** ** The stored code *)

Section PayloadStore.

Variable validateAccountId : AccountId -> bool.

(** [update_stored_contract] as a decision list: the two checks of the
    decorator, then the assertion, then the assignment. *)
Lemma execute_update env state :
  execute validateAccountId env state msg_update_stored_contract =
  if negb (predecessorAccountId env =? currentAccountId env)%string
  then build_Receipt (inl AuthorizationError) state []
  else if 0 <? attachedDeposit env
  then build_Receipt (inl (Error "Function is not payable")) state []
  else if truthy (input env)
  then build_Receipt (inr ReturnVoid) (build_HelloNear (input env)) []
  else build_Receipt (inl EmptyInputError) state [].
Proof.
  unfold execute, run_method, update_stored_contract, call, bind, assert,
    near_input, set_code, ret, throw.
  cbn [privateFunction payableFunction negb andb this logs].
  destruct (negb _); [reflexivity|].
  destruct (0 <? _); [reflexivity|].
  destruct (truthy _); reflexivity.
Qed.

Lemma execute_get_code env state :
  execute validateAccountId env state msg_get_code
  = build_Receipt (inr (ReturnBytes (code state))) state [].
Proof. reflexivity. Qed.

Lemma state_after_callback env state args :
  state_after (execute validateAccountId env state
                 (msg_create_factory_subaccount_and_deploy_callback args))
  = state.
Proof.
  unfold execute, run_method, create_factory_subaccount_and_deploy_callback,
    call, bind, try_catch, near_promiseResult, near_log, ret.
  cbn [privateFunction payableFunction negb andb this logs].
  destruct (negb _); [reflexivity|].
  destruct (0 <? _); [reflexivity|].
  destruct (nth_error _ _) as [[| |]|]; reflexivity.
Qed.

Lemma state_after_create env state name beneficiary public_key :
  state_after (execute validateAccountId env state
                 (msg_create_factory_subaccount_and_deploy
                    name beneficiary public_key))
  = state.
Proof.
  rewrite execute_create.
  destruct (validateAccountId _); [|reflexivity].
  destruct (_ <=? _); [|reflexivity].
  destruct (key_failure public_key); reflexivity.
Qed.

(** Only [update_stored_contract] writes the state. *)
Lemma state_after_other env state msg :
  msg <> msg_update_stored_contract ->
  state_after (execute validateAccountId env state msg) = state.
Proof.
  intros Hmsg. destruct msg.
  - congruence.
  - reflexivity.
  - apply state_after_create.
  - apply state_after_callback.
Qed.

Lemma update_succeeds_iff env state :
  status (execute validateAccountId env state msg_update_stored_contract)
  = inr ReturnVoid
  <-> predecessorAccountId env = currentAccountId env
      /\ attachedDeposit env <= 0
      /\ input env <> "".
Proof.
  rewrite execute_update.
  destruct (String.eqb_spec (predecessorAccountId env) (currentAccountId env)) as [He|He];
    cbn [negb].
  2:{ split; [discriminate|]. intros [H _]. contradiction. }
  destruct (Z.ltb_spec 0 (attachedDeposit env)).
  { split; [discriminate|]. intros (_ & H' & _). lia. }
  destruct (truthy (input env)) eqn:Ht; cbn [status].
  - apply truthy_true_iff in Ht. split; [|reflexivity]. intros _. auto.
  - apply truthy_false_iff in Ht. split; [discriminate|].
    intros (_ & _ & H'). contradiction.
Qed.

Lemma replace_payload_state env state :
  status (execute validateAccountId env state msg_update_stored_contract)
  = inr ReturnVoid ->
  state_after (execute validateAccountId env state msg_update_stored_contract)
  = build_HelloNear (input env).
Proof.
  rewrite execute_update.
  destruct (negb _); [discriminate|].
  destruct (0 <? _); [discriminate|].
  destruct (truthy _); [reflexivity|discriminate].
Qed.

Lemma failed_call_keeps_state env state msg e :
  status (execute validateAccountId env state msg) = inl e ->
  state_after (execute validateAccountId env state msg) = state.
Proof.
  unfold execute.
  destruct (run_method validateAccountId msg env (build_World state []));
    cbn [status state_after]; [discriminate|reflexivity].
Qed.

(** C8. [update_stored_contract] fails with "Function is private" for every
    caller other than the contract itself; called by the contract, without a
    deposit and with an empty input, it fails with "Error: No input"; no
    failing call changes the stored code; a call that succeeds replaces the
    stored code by the input as a whole. *)
Theorem replace_payload_guarded env state :
  let receipt := execute validateAccountId env state msg_update_stored_contract in
  (predecessorAccountId env <> currentAccountId env ->
   status receipt = inl AuthorizationError /\ state_after receipt = state)
  /\ (predecessorAccountId env = currentAccountId env ->
      attachedDeposit env = NO_DEPOSIT ->
      input env = "" ->
      status receipt = inl EmptyInputError /\ state_after receipt = state)
  /\ (forall e, status receipt = inl e -> state_after receipt = state)
  /\ (predecessorAccountId env = currentAccountId env ->
      attachedDeposit env = NO_DEPOSIT ->
      input env <> "" ->
      status receipt = inr ReturnVoid)
  /\ (status receipt = inr ReturnVoid ->
      state_after receipt = build_HelloNear (input env)).
Proof.
  intros receipt. subst receipt. rewrite execute_update.
  destruct (String.eqb_spec (predecessorAccountId env) (currentAccountId env)) as [He|He];
    cbn [negb].
  2:{ repeat split; try contradiction; cbn [status] in *; discriminate. }
  destruct (Z.ltb_spec 0 (attachedDeposit env)) as [Hd|Hd].
  { unfold NO_DEPOSIT. repeat split; try contradiction; try lia;
      cbn [status] in *; discriminate. }
  destruct (truthy (input env)) eqn:Ht.
  - apply truthy_true_iff in Ht.
    repeat split; try contradiction; cbn [status] in *; discriminate.
  - apply truthy_false_iff in Ht.
    repeat split; try contradiction; cbn [status] in *; discriminate.
Qed.

(** C9. After a call of [update_stored_contract] that succeeded on the input
    [b], [get_code] returns [b], whoever asks; and after a second call that
    succeeded the stored code is the input of the second. *)
Theorem read_after_replace env1 state :
  status (execute validateAccountId env1 state msg_update_stored_contract)
  = inr ReturnVoid ->
  let state1 :=
    state_after (execute validateAccountId env1 state msg_update_stored_contract) in
  (forall env,
     status (execute validateAccountId env state1 msg_get_code)
     = inr (ReturnBytes (input env1)))
  /\ (forall env2,
        status (execute validateAccountId env2 state1 msg_update_stored_contract)
        = inr ReturnVoid ->
        let state2 :=
          state_after
            (execute validateAccountId env2 state1 msg_update_stored_contract) in
        code state2 = input env2
        /\ forall env,
             status (execute validateAccountId env state2 msg_get_code)
             = inr (ReturnBytes (input env2))).
Proof.
  intros H1 state1.
  assert (E1 : state1 = build_HelloNear (input env1)).
  { subst state1. apply replace_payload_state. exact H1. }
  split.
  - intros env. rewrite execute_get_code, E1. reflexivity.
  - intros env2 H2 state2.
    assert (E2 : state2 = build_HelloNear (input env2)).
    { subst state2. apply replace_payload_state. exact H2. }
    split; [now rewrite E2|].
    intros env. rewrite execute_get_code, E2. reflexivity.
Qed.

End PayloadStore.

(** ** The invariant of the store *)

Section Invariant.

Variable validateAccountId : AccountId -> bool.
Variable DEFAULT_CONTRACT : Bytes.

Lemma update_keeps_code_nonempty env state :
  code state <> "" ->
  code (state_after (execute validateAccountId env state msg_update_stored_contract))
  <> "".
Proof.
  intros Hstate. rewrite execute_update.
  destruct (negb _); [exact Hstate|].
  destruct (0 <? _); [exact Hstate|].
  destruct (truthy (input env)) eqn:Ht; [|exact Hstate].
  cbn [state_after code]. now apply truthy_true_iff.
Qed.

Lemma reachable_code_nonempty state :
  DEFAULT_CONTRACT <> "" ->
  reachable validateAccountId DEFAULT_CONTRACT state ->
  code state <> "".
Proof.
  intros Hdefault Hreach.
  induction Hreach as [|env state msg Hreach IH].
  - exact Hdefault.
  - destruct msg.
    + now apply update_keeps_code_nonempty.
    + exact IH.
    + now rewrite state_after_create.
    + now rewrite state_after_callback.
Qed.

Lemma minimumNeeded_positive state :
  code state <> "" -> 0 < minimumNeeded NEAR_PER_STORAGE state.
Proof.
  intros H. apply truthy_true_iff, truthy_length in H.
  unfold minimumNeeded, contractBytes, NEAR_PER_STORAGE. lia.
Qed.

(** C10. When the default contract is not empty, the stored code is not empty
    in any state the contract can reach, so the minimum deposit is never
    zero: the contract starts with the default, [update_stored_contract]
    only succeeds on a non-empty input, and no other method writes the
    state. *)
Theorem stored_code_never_empty :
  DEFAULT_CONTRACT <> "" ->
  (forall state,
     reachable validateAccountId DEFAULT_CONTRACT state ->
     code state <> "" /\ 0 < minimumNeeded NEAR_PER_STORAGE state)
  /\ code (initial_state DEFAULT_CONTRACT) = DEFAULT_CONTRACT
  /\ (forall env state,
        status (execute validateAccountId env state msg_update_stored_contract)
        = inr ReturnVoid ->
        input env <> "")
  /\ (forall env state msg,
        msg <> msg_update_stored_contract ->
        state_after (execute validateAccountId env state msg) = state).
Proof.
  intros Hdefault. split.
  { intros state Hreach.
    pose proof (reachable_code_nonempty state Hdefault Hreach) as H.
    split; [exact H|]. now apply minimumNeeded_positive. }
  split; [reflexivity|]. split.
  - intros env state H. now apply update_succeeds_iff in H.
  - intros env state msg Hmsg. now apply state_after_other.
Qed.

End Invariant.

(** * The scenarios *)

(** Scenario B, the batch, with a key: [alice.test] asks [factory.test] for
    [sub], attaches the 10^22 that 1000 bytes cost and passes an ed25519
    key. *)
Lemma provision_dispatches_ordered_batch_scenario :
  exists continuation,
    scheduled
      (execute NearSdk.validateAccountId (scenario_env (10 ^ 22)) scenario_state
         (msg_create_factory_subaccount_and_deploy "sub" "bob.test"
            (Some ed25519_key)))
    = [("sub.factory.test",
        [CreateAccount;
         Transfer (10 ^ 22);
         DeployContract (zero_bytes 1000);
         FunctionCall "init" (SerializedInitArgs (build_DonationInitArgs "bob.test"))
           0 5000000000000;
         AddFullAccessKey (build_PublicKey ed25519_key)]);
       continuation].
Proof.
  destruct (provision_dispatches_ordered_batch NearSdk.validateAccountId
              (scenario_env (10 ^ 22)) scenario_state "sub" "bob.test"
              (Some ed25519_key))
    as [Hdispatched _].
  - reflexivity.
  - apply Z.leb_le. vm_compute. reflexivity.
  - destruct (Hdispatched eq_refl)
      as (key_actions & continuation & Hscheduled & Hkey & _).
    exists continuation. rewrite Hscheduled, Hkey. reflexivity.
Defined.

(** C1 as stated fails for a key in the usual text form: the request passes
    the name check and the funding check, [new PublicKey] refuses the key
    for its first byte, and nothing is scheduled. *)
Lemma malformed_public_key_is_not_dispatched :
  NearSdk.validateAccountId ("sub" ++ "." ++ currentAccountId (scenario_env (10 ^ 22)))
  = true
  /\ NEAR_PER_STORAGE * Z.of_nat (String.length (code scenario_state))
     <= attachedDeposit (scenario_env (10 ^ 22))
  /\ status
       (execute NearSdk.validateAccountId (scenario_env (10 ^ 22)) scenario_state
          (msg_create_factory_subaccount_and_deploy "sub" "bob.test"
             (Some "ed25519:6E8sCci9badyRkXb3JoRpBj5p8C6Tw41ELDZoiihKEtp")))
     = inl (Error "Unknown curve")
  /\ scheduled
       (execute NearSdk.validateAccountId (scenario_env (10 ^ 22)) scenario_state
          (msg_create_factory_subaccount_and_deploy "sub" "bob.test"
             (Some "ed25519:6E8sCci9badyRkXb3JoRpBj5p8C6Tw41ELDZoiihKEtp")))
     = [].
Proof.
  split; [reflexivity|].
  split; [apply Z.leb_le; vm_compute; reflexivity|].
  rewrite execute_create. split; vm_compute; reflexivity.
Qed.

(** Scenario A: at the rate 10, 9999 is one short of what 1000 bytes cost. *)
Lemma insufficient_funds_abort_scenario :
  create_factory_subaccount_and_deploy_at NearSdk.validateAccountId 10
    "sub" "bob.test" None (scenario_env 9999) (build_World scenario_state [])
  = Throws (Error "assertion failed: Attach at least 10000 yⓃ")
      (build_World scenario_state []).
Proof.
  exact (proj1 (insufficient_funds_abort NearSdk.validateAccountId 10
                  (scenario_env 9999) (build_World scenario_state [])
                  "sub" "bob.test" None eq_refl eq_refl)).
Defined.

(** An empty short name is refused even when nothing is attached, and a
    capital letter is refused by the SDK's validator. *)
Lemma invalid_name_aborts_first_scenario :
  create_factory_subaccount_and_deploy_at NearSdk.validateAccountId NEAR_PER_STORAGE
    "" "bob.test" None (scenario_env 0) (build_World scenario_state [])
  = Throws (Error "assertion failed: Invalid subaccount")
      (build_World scenario_state [])
  /\ NearSdk.validateAccountId ("Sub" ++ "." ++ "factory.test") = false.
Proof.
  split.
  - apply (proj1 invalid_name_aborts_first NearSdk.validateAccountId
             NEAR_PER_STORAGE (scenario_env 0) (build_World scenario_state [])
             "" "bob.test" None).
    reflexivity.
  - apply (proj2 invalid_name_aborts_first "Sub" "factory.test").
    right. right. reflexivity.
Defined.

(** Scenario B, the callback: the batch settled, the callback returns [true]
    and the record names the sub-account. *)
Lemma callback_returns_boolean_scenario :
  status (execute NearSdk.validateAccountId
            (scenario_callback_env (Successful "")) scenario_state
            (msg_create_factory_subaccount_and_deploy_callback
               scenario_callback_args))
  = inr (ReturnBool true)
  /\ logs_emitted
       (execute NearSdk.validateAccountId
          (scenario_callback_env (Successful "")) scenario_state
          (msg_create_factory_subaccount_and_deploy_callback
             scenario_callback_args))
     = ["Correctly created and deployed to sub.factory.test"].
Proof.
  apply (callback_returns_boolean NearSdk.validateAccountId
           (scenario_callback_env (Successful "")) scenario_state
           scenario_callback_args (Successful "") []
           eq_refl eq_refl eq_refl).
  reflexivity.
Defined.

(** Scenario C: the batch failed; the record names the sub-account, the 10000
    and the requester, and nothing is scheduled. *)
Lemma callback_failure_issues_no_refund_scenario :
  scheduled
    (execute NearSdk.validateAccountId (scenario_callback_env Failed)
       scenario_state
       (msg_create_factory_subaccount_and_deploy_callback scenario_callback_args))
  = []
  /\ logs_emitted
       (execute NearSdk.validateAccountId (scenario_callback_env Failed)
          scenario_state
          (msg_create_factory_subaccount_and_deploy_callback
             scenario_callback_args))
     = ["Error creating sub.factory.test, returning 10000yⓃ to alice.test"].
Proof.
  destruct (callback_failure_issues_no_refund NearSdk.validateAccountId
              (scenario_callback_env Failed) scenario_state
              scenario_callback_args Failed []
              eq_refl eq_refl eq_refl eq_refl)
    as (Hscheduled & _ & Hlogs & _).
  split; [exact Hscheduled|exact Hlogs].
Defined.

(** Scenario B, the continuation: the request with a key is dispatched, and
    the call of the callback carries the sub-account, [alice.test] and the
    10^22 of the request. *)
Lemma provision_chains_callback_scenario :
  exists batch_actions,
    scheduled
      (execute NearSdk.validateAccountId (scenario_env (10 ^ 22)) scenario_state
         (msg_create_factory_subaccount_and_deploy "sub" "bob.test"
            (Some ed25519_key)))
    = [("sub.factory.test", batch_actions);
       ("factory.test",
        [FunctionCall "create_factory_subaccount_and_deploy_callback"
           (SerializedCallbackArgs
              (build_CallbackArgs "sub.factory.test" "alice.test" (10 ^ 22)))
           0 5000000000000])].
Proof.
  pose proof (provision_chains_callback NearSdk.validateAccountId
                (scenario_env (10 ^ 22)) scenario_state "sub" "bob.test"
                (Some ed25519_key)) as H.
  cbn zeta in H. destruct H as [Hshape Hdispatched].
  destruct Hdispatched as [p Hp].
  - reflexivity.
  - apply Z.leb_le. vm_compute. reflexivity.
  - reflexivity.
  - destruct (Hshape p Hp) as (batch_actions & _ & Hscheduled).
    exists batch_actions. exact Hscheduled.
Defined.

(** The eight bytes of a wasm header cost no more than the 1000 bytes of the
    scenario. *)
Lemma minimum_funding_linear_monotone_scenario :
  minimumNeeded NEAR_PER_STORAGE (build_HelloNear wasm_header)
  <= minimumNeeded NEAR_PER_STORAGE scenario_state
  /\ minimumNeeded NEAR_PER_STORAGE scenario_state = NEAR_PER_STORAGE * 1000.
Proof.
  destruct minimum_funding_linear_monotone as (_ & Hlinear & Hmonotone & _).
  split.
  - apply Hmonotone. vm_compute. lia.
  - apply (Hlinear 1000%nat scenario_state). vm_compute. reflexivity.
Defined.

(** Scenario D: [alice.test] may not replace the code of [factory.test]. *)
Lemma replace_payload_guarded_scenario :
  status (execute NearSdk.validateAccountId
            (build_Env "factory.test" "alice.test" 0 wasm_header [])
            scenario_state msg_update_stored_contract)
  = inl (Error "Function is private")
  /\ state_after
       (execute NearSdk.validateAccountId
          (build_Env "factory.test" "alice.test" 0 wasm_header [])
          scenario_state msg_update_stored_contract)
     = scenario_state.
Proof.
  apply (replace_payload_guarded NearSdk.validateAccountId
           (build_Env "factory.test" "alice.test" 0 wasm_header [])
           scenario_state).
  cbn. discriminate.
Defined.

(** The factory replaces its code by a wasm header and reads it back. *)
Lemma read_after_replace_scenario :
  status
    (execute NearSdk.validateAccountId (scenario_env 0)
       (state_after
          (execute NearSdk.validateAccountId
             (build_Env "factory.test" "factory.test" 0 wasm_header [])
             scenario_state msg_update_stored_contract))
       msg_get_code)
  = inr (ReturnBytes wasm_header).
Proof.
  apply (read_after_replace NearSdk.validateAccountId
           (build_Env "factory.test" "factory.test" 0 wasm_header [])
           scenario_state).
  reflexivity.
Defined.

(** A factory that starts with a wasm header and then has its code replaced
    still asks for a positive deposit. *)
Lemma stored_code_never_empty_scenario :
  0 < minimumNeeded NEAR_PER_STORAGE
        (state_after
           (execute NearSdk.validateAccountId
              (build_Env "factory.test" "factory.test" 0 (zero_bytes 1000) [])
              (initial_state wasm_header) msg_update_stored_contract)).
Proof.
  assert (Hdefault : wasm_header <> "") by discriminate.
  apply (proj1 (stored_code_never_empty NearSdk.validateAccountId wasm_header
                  Hdefault)).
  apply reachable_call. apply reachable_initial.
Defined.

(** * Further properties of the methods *)

Section Methods.

Variable validateAccountId : AccountId -> bool.

(** ** Who may call what *)

Lemma execute_callback_foreign env state args :
  predecessorAccountId env <> currentAccountId env ->
  execute validateAccountId env state
    (msg_create_factory_subaccount_and_deploy_callback args)
  = build_Receipt (inl (Error "Function is private")) state [].
Proof.
  intros Hforeign.
  unfold execute, run_method, create_factory_subaccount_and_deploy_callback,
    call, bind.
  cbn [privateFunction payableFunction andb].
  apply String.eqb_neq in Hforeign. rewrite Hforeign. reflexivity.
Qed.

(** X1. The callback is private: called by any account other than the
    contract it fails with "Function is private" whatever the promise
    results are, logs nothing, schedules nothing and leaves the state. *)
Theorem callback_is_private env state args :
  predecessorAccountId env <> currentAccountId env ->
  let receipt :=
    execute validateAccountId env state
      (msg_create_factory_subaccount_and_deploy_callback args) in
  status receipt = inl (Error "Function is private")
  /\ logs_emitted receipt = []
  /\ scheduled receipt = []
  /\ state_after receipt = state.
Proof.
  intros Hforeign receipt. subst receipt.
  rewrite (execute_callback_foreign env state args Hforeign).
  repeat split.
Qed.

Lemma foreign_call_keeps_state env state msg :
  predecessorAccountId env <> currentAccountId env ->
  state_after (execute validateAccountId env state msg) = state.
Proof.
  intros Hforeign. destruct msg.
  - rewrite execute_update.
    apply String.eqb_neq in Hforeign. rewrite Hforeign. reflexivity.
  - reflexivity.
  - apply state_after_create.
  - apply state_after_callback.
Qed.

(** X2. No sequence of calls made by accounts other than the contract
    changes the stored code, whatever methods they call and whatever they
    send. *)
Theorem foreign_calls_keep_code calls state :
  Forall (fun c => predecessorAccountId (fst c) <> currentAccountId (fst c)) calls ->
  run_calls validateAccountId calls state = state.
Proof.
  intros Hcalls. revert state.
  induction Hcalls as [|[env msg] rest Hforeign _ IH]; intros state.
  - reflexivity.
  - cbn [run_calls]. cbn [fst] in Hforeign.
    rewrite (foreign_call_keeps_state env state msg Hforeign). apply IH.
Qed.

Lemma update_step env state :
  state_after (execute validateAccountId env state msg_update_stored_contract)
  = state
  \/ (predecessorAccountId env = currentAccountId env
      /\ input env <> ""
      /\ state_after (execute validateAccountId env state msg_update_stored_contract)
         = build_HelloNear (input env)).
Proof.
  rewrite execute_update.
  destruct (String.eqb_spec (predecessorAccountId env) (currentAccountId env)) as [He|He];
    cbn [negb]; [|now left].
  destruct (0 <? _); [now left|].
  destruct (truthy (input env)) eqn:Ht; [|now left].
  right. apply truthy_true_iff in Ht. repeat split; assumption.
Qed.

(** X3. After any sequence of calls the stored code is the code the sequence
    started with, or the non-empty input of one of its calls of
    [update_stored_contract], a call that the contract account made
    itself. *)
Theorem stored_code_provenance calls state :
  code (run_calls validateAccountId calls state) = code state
  \/ exists env,
       In (env, msg_update_stored_contract) calls
       /\ predecessorAccountId env = currentAccountId env
       /\ input env <> ""
       /\ code (run_calls validateAccountId calls state) = input env.
Proof.
  revert state.
  induction calls as [|[env msg] rest IH]; intros state.
  - now left.
  - cbn [run_calls].
    destruct (IH (state_after (execute validateAccountId env state msg)))
      as [Hsame | (env' & Hin & Hself & Hinput & Hcode)].
    + rewrite Hsame. destruct msg.
      * destruct (update_step env state) as [-> | (Hself & Hinput & ->)].
        -- now left.
        -- right. exists env. repeat split; auto. now left.
      * now left.
      * left. now rewrite state_after_create.
      * left. now rewrite state_after_callback.
    + right. exists env'. repeat split; auto. now right.
Qed.

(** ** What a call schedules and logs *)

Lemma scheduled_callback env state args :
  scheduled (execute validateAccountId env state
               (msg_create_factory_subaccount_and_deploy_callback args)) = [].
Proof.
  unfold scheduled, execute, run_method,
    create_factory_subaccount_and_deploy_callback,
    call, bind, try_catch, near_promiseResult, near_log, ret.
  cbn [privateFunction payableFunction negb andb this logs].
  destruct (negb _); [reflexivity|].
  destruct (0 <? _); [reflexivity|].
  destruct (nth_error _ _) as [[| |]|]; reflexivity.
Qed.

Lemma scheduled_update env state :
  scheduled (execute validateAccountId env state msg_update_stored_contract) = [].
Proof.
  rewrite execute_update. unfold scheduled.
  destruct (negb _); [reflexivity|].
  destruct (0 <? _); [reflexivity|].
  destruct (truthy _); reflexivity.
Qed.

(** X4. A call schedules promises exactly when it is
    [create_factory_subaccount_and_deploy] with a name the validator accepts,
    a deposit of at least the minimum and a key that [new PublicKey] does
    not refuse; it then schedules two batches, and any other call schedules
    none. *)
Theorem schedules_iff_valid_funded_request env state msg :
  let receipt := execute validateAccountId env state msg in
  (scheduled receipt <> [] <->
   exists name beneficiary public_key,
     msg = msg_create_factory_subaccount_and_deploy name beneficiary public_key
     /\ validateAccountId (name ++ "." ++ currentAccountId env) = true
     /\ NEAR_PER_STORAGE * Z.of_nat (String.length (code state))
        <= attachedDeposit env
     /\ key_failure public_key = None)
  /\ (scheduled receipt = [] \/ List.length (scheduled receipt) = 2%nat).
Proof.
  intros receipt. subst receipt. destruct msg as [| |name beneficiary public_key|args].
  - rewrite scheduled_update. split; [|now left].
    split; [congruence|]. intros (n & b & k & Hmsg & _). discriminate.
  - cbn. split; [|now left].
    split; [congruence|]. intros (n & b & k & Hmsg & _). discriminate.
  - rewrite execute_create. unfold minimumNeeded, contractBytes.
    destruct (validateAccountId (name ++ "." ++ currentAccountId env)) eqn:Hname.
    + destruct (Z.leb_spec (NEAR_PER_STORAGE * Z.of_nat (String.length (code state)))
                  (attachedDeposit env)) as [Hfunds|Hfunds].
      * destruct (key_failure public_key) as [e|] eqn:Hkey.
        -- split; [|now left]. split; [intros H; now elim H|].
           intros (n & b & k & Hmsg & Hn & Hf & Hk).
           injection Hmsg as <- <- <-. congruence.
        -- unfold scheduled. cbn [status]. rewrite batches_dispatched.
           split; [|now right]. split; [|discriminate].
           intros _. exists name, beneficiary, public_key. auto.
      * split; [|now left]. split; [intros H; now elim H|].
        intros (n & b & k & Hmsg & Hn & Hf & Hk). injection Hmsg as <- <- <-. lia.
    + split; [|now left]. split; [intros H; now elim H|].
      intros (n & b & k & Hmsg & Hn & Hf & Hk).
      injection Hmsg as <- <- <-. congruence.
  - rewrite scheduled_callback. split; [|now left].
    split; [congruence|]. intros (n & b & k & Hmsg & _). discriminate.
Qed.

Lemma batch_deposit_key_grant public_key :
  batch_deposit (key_grant public_key) = 0.
Proof.
  unfold key_grant.
  destruct public_key as [k|]; [destruct (truthy k)|]; reflexivity.
Qed.

Lemma batch_deposit_app (xs ys : list PromiseAction) :
  batch_deposit (xs ++ ys) = batch_deposit xs + batch_deposit ys.
Proof.
  unfold batch_deposit.
  induction xs as [|x xs IH]; cbn [app fold_right]; [reflexivity|].
  rewrite IH. lia.
Qed.

(** X5. What the promises of one call take with them adds up to the deposit
    that was attached when the request is dispatched, and to nothing
    otherwise: the contract passes the deposit on and adds none of its
    own balance. *)
Theorem scheduled_deposit_is_attached env state msg :
  let receipt := execute validateAccountId env state msg in
  (scheduled receipt <> [] -> scheduled_deposit receipt = attachedDeposit env)
  /\ (scheduled receipt = [] -> scheduled_deposit receipt = 0).
Proof.
  intros receipt. subst receipt. split.
  - destruct msg as [| |name beneficiary public_key|args].
    + rewrite scheduled_update. congruence.
    + cbn. congruence.
    + rewrite execute_create.
      destruct (validateAccountId _); [|intros H; now elim H].
      destruct (_ <=? _); [|intros H; now elim H].
      destruct (key_failure public_key); [intros H; now elim H|].
      intros _. unfold scheduled_deposit, scheduled. cbn [status].
      rewrite batches_dispatched. cbn [fold_right snd].
      rewrite batch_deposit_app, batch_deposit_key_grant.
      unfold batch_deposit, NO_DEPOSIT. cbn [fold_right action_deposit]. lia.
    + rewrite scheduled_callback. congruence.
  - intros H. unfold scheduled_deposit. now rewrite H.
Qed.

(** X6. The outcome of a request does not get worse with a larger deposit:
    a request that is dispatched is dispatched again under the same account
    with at least as much attached. *)
Theorem dispatch_monotone_in_deposit env env' state name beneficiary public_key :
  currentAccountId env' = currentAccountId env ->
  attachedDeposit env <= attachedDeposit env' ->
  (exists p,
     status (execute validateAccountId env state
               (msg_create_factory_subaccount_and_deploy name beneficiary public_key))
     = inr (ReturnPromise p)) ->
  exists p',
    status (execute validateAccountId env' state
              (msg_create_factory_subaccount_and_deploy name beneficiary public_key))
    = inr (ReturnPromise p').
Proof.
  intros Hcurrent Hdeposit [p Hp].
  rewrite execute_create in *. rewrite Hcurrent.
  destruct (validateAccountId _); [|discriminate].
  destruct (Z.leb_spec (minimumNeeded NEAR_PER_STORAGE state) (attachedDeposit env));
    [|discriminate].
  destruct (Z.leb_spec (minimumNeeded NEAR_PER_STORAGE state) (attachedDeposit env'));
    [|lia].
  destruct (key_failure public_key); [discriminate|].
  eexists. reflexivity.
Qed.

(** X7. An empty string as [public_key] is no key: the receipt is the one of
    the request without [public_key]. *)
Theorem empty_public_key_is_no_key env state name beneficiary :
  execute validateAccountId env state
    (msg_create_factory_subaccount_and_deploy name beneficiary (Some ""))
  = execute validateAccountId env state
      (msg_create_factory_subaccount_and_deploy name beneficiary None).
Proof. now rewrite !execute_create. Qed.

(** ** Replacing the code, then deploying it *)

(** X8. After a call of [update_stored_contract] that succeeded, a request
    with a valid name is measured against the new code and deploys the new
    code: with at least [NEAR_PER_STORAGE] times the length of the input of
    the update attached, and a key that [new PublicKey] does not refuse, the
    batch deploys that input; with less, the request fails and asks for that
    amount. *)
Theorem update_then_provision env1 env2 state name beneficiary public_key :
  status (execute validateAccountId env1 state msg_update_stored_contract)
  = inr ReturnVoid ->
  validateAccountId (name ++ "." ++ currentAccountId env2) = true ->
  let receipt :=
    execute validateAccountId env2
      (state_after (execute validateAccountId env1 state msg_update_stored_contract))
      (msg_create_factory_subaccount_and_deploy name beneficiary public_key) in
  (NEAR_PER_STORAGE * Z.of_nat (String.length (input env1)) <= attachedDeposit env2 ->
   key_failure public_key = None ->
   exists key_actions continuation,
     scheduled receipt
     = [(name ++ "." ++ currentAccountId env2,
         ([CreateAccount;
           Transfer (attachedDeposit env2);
           DeployContract (input env1);
           FunctionCall "init" (serialize (build_DonationInitArgs beneficiary))
             NO_DEPOSIT (TGAS * 5)] ++ key_actions)%list);
        continuation])
  /\ (attachedDeposit env2 < NEAR_PER_STORAGE * Z.of_nat (String.length (input env1)) ->
      status receipt
      = inl (InsufficientFundsError
               (NEAR_PER_STORAGE * Z.of_nat (String.length (input env1))))
      /\ scheduled receipt = []).
Proof.
  intros Hupdate Hname receipt. subst receipt.
  rewrite (replace_payload_state validateAccountId env1 state Hupdate).
  rewrite execute_create, Hname. unfold minimumNeeded, contractBytes. cbn [code].
  split; intros Hfunds.
  - intros Hkey. apply Z.leb_le in Hfunds. rewrite Hfunds, Hkey.
    unfold scheduled. cbn [status]. rewrite batches_dispatched. cbn [code].
    eexists; eexists. reflexivity.
  - apply Z.leb_gt in Hfunds. rewrite Hfunds. split; reflexivity.
Qed.

(** X9. The minimum is zero exactly when the stored code is empty; with an
    empty code stored, a request with a valid name and a key that
    [new PublicKey] does not refuse is dispatched for every deposit from
    zero on, and deploys the empty code. *)
Theorem empty_code_needs_no_deposit env state name beneficiary public_key :
  (minimumNeeded NEAR_PER_STORAGE state = 0 <-> code state = "")
  /\ (code state = "" ->
      validateAccountId (name ++ "." ++ currentAccountId env) = true ->
      0 <= attachedDeposit env ->
      key_failure public_key = None ->
      exists key_actions continuation,
        scheduled
          (execute validateAccountId env state
             (msg_create_factory_subaccount_and_deploy name beneficiary public_key))
        = [(name ++ "." ++ currentAccountId env,
            ([CreateAccount;
              Transfer (attachedDeposit env);
              DeployContract "";
              FunctionCall "init" (serialize (build_DonationInitArgs beneficiary))
                NO_DEPOSIT (TGAS * 5)] ++ key_actions)%list);
           continuation]).
Proof.
  split.
  - unfold minimumNeeded, contractBytes, NEAR_PER_STORAGE.
    destruct (code state) as [|c rest]; cbn [String.length]; split; intros H;
      try reflexivity; try discriminate; lia.
  - intros Hcode Hname Hdeposit Hkey.
    rewrite execute_create, Hname. unfold minimumNeeded, contractBytes.
    rewrite Hcode. cbn [String.length Z.of_nat]. rewrite Z.mul_0_r.
    apply Z.leb_le in Hdeposit. rewrite Hdeposit, Hkey.
    unfold scheduled. cbn [status]. rewrite batches_dispatched, Hcode.
    eexists; eexists. reflexivity.
Qed.

(** ** The log *)

(** X10. Only the callback writes to the log, and one record at most: every
    other call, and every call that fails, leaves the log of the call
    empty. *)
Theorem only_callback_logs env state msg :
  let receipt := execute validateAccountId env state msg in
  (logs_emitted receipt <> [] ->
   exists args b,
     msg = msg_create_factory_subaccount_and_deploy_callback args
     /\ status receipt = inr (ReturnBool b)
     /\ logs_emitted receipt
        = [if b
           then "Correctly created and deployed to " ++ account args
           else "Error creating " ++ account args ++ ", returning "
                ++ show_bigint (attached args) ++ "yⓃ to " ++ user args])
  /\ (forall e, status receipt = inl e -> logs_emitted receipt = []).
Proof.
  intros receipt. subst receipt.
  destruct msg as [| |name beneficiary public_key|args].
  - rewrite execute_update.
    destruct (negb _); [|destruct (0 <? _); [|destruct (truthy _)]];
      cbn [logs_emitted]; split; congruence.
  - cbn. split; congruence.
  - rewrite execute_create.
    destruct (validateAccountId _);
      [destruct (_ <=? _); [destruct (key_failure public_key)|]|];
      cbn [logs_emitted]; split; congruence.
  - unfold execute, run_method, create_factory_subaccount_and_deploy_callback,
      call, bind, try_catch, near_promiseResult, near_log, ret.
    cbn [privateFunction payableFunction negb andb this logs].
    destruct (negb _); [cbn; split; congruence|].
    destruct (0 <? _); [cbn; split; congruence|].
    destruct (nth_error _ _) as [[| |]|]; cbn [logs_emitted status logs this app];
      split; try congruence; intros _.
    + exists args, false. repeat split.
    + exists args, true. repeat split.
    + exists args, false. repeat split.
Qed.

End Methods.

(** * Further scenarios *)

(** [alice.test] calls the callback herself, with a successful result in the
    environment. *)
Lemma callback_is_private_scenario :
  status
    (execute NearSdk.validateAccountId
       (build_Env "factory.test" "alice.test" 0 "" [Successful ""])
       scenario_state
       (msg_create_factory_subaccount_and_deploy_callback scenario_callback_args))
  = inl (Error "Function is private").
Proof.
  apply (callback_is_private NearSdk.validateAccountId
           (build_Env "factory.test" "alice.test" 0 "" [Successful ""])
           scenario_state scenario_callback_args).
  cbn. discriminate.
Defined.

(** [alice.test] tries to replace the code, asks for a sub-account and calls
    the callback. *)
Lemma foreign_calls_keep_code_scenario :
  run_calls NearSdk.validateAccountId
    [(build_Env "factory.test" "alice.test" 0 wasm_header [],
      msg_update_stored_contract);
     (scenario_env (10 ^ 22),
      msg_create_factory_subaccount_and_deploy "sub" "bob.test" None);
     (build_Env "factory.test" "alice.test" 0 "" [Failed],
      msg_create_factory_subaccount_and_deploy_callback scenario_callback_args)]
    scenario_state
  = scenario_state.
Proof.
  apply foreign_calls_keep_code.
  repeat constructor; cbn; discriminate.
Defined.

(** The factory replaces its code; [alice.test] reads it. *)
Lemma stored_code_provenance_scenario :
  code (run_calls NearSdk.validateAccountId
          [(build_Env "factory.test" "factory.test" 0 wasm_header [],
            msg_update_stored_contract);
           (scenario_env 0, msg_get_code)]
          scenario_state)
  = code scenario_state
  \/ exists env,
       In (env, msg_update_stored_contract)
          [(build_Env "factory.test" "factory.test" 0 wasm_header [],
            msg_update_stored_contract);
           (scenario_env 0, msg_get_code)]
       /\ predecessorAccountId env = currentAccountId env
       /\ input env <> ""
       /\ code (run_calls NearSdk.validateAccountId
                  [(build_Env "factory.test" "factory.test" 0 wasm_header [],
                    msg_update_stored_contract);
                   (scenario_env 0, msg_get_code)]
                  scenario_state)
          = input env.
Proof.
  exact (stored_code_provenance NearSdk.validateAccountId
           [(build_Env "factory.test" "factory.test" 0 wasm_header [],
             msg_update_stored_contract);
            (scenario_env 0, msg_get_code)]
           scenario_state).
Defined.

(** The request of scenario B schedules two batches. *)
Lemma schedules_iff_valid_funded_request_scenario :
  scheduled
    (execute NearSdk.validateAccountId (scenario_env (10 ^ 22)) scenario_state
       (msg_create_factory_subaccount_and_deploy "sub" "bob.test" None))
  <> [].
Proof.
  apply (proj1 (schedules_iff_valid_funded_request NearSdk.validateAccountId
                  (scenario_env (10 ^ 22)) scenario_state
                  (msg_create_factory_subaccount_and_deploy "sub" "bob.test" None))).
  exists "sub", "bob.test", None.
  split; [reflexivity|]. split; [reflexivity|].
  split; [|reflexivity].
  apply Z.leb_le. vm_compute. reflexivity.
Defined.

(** The promises of scenario B carry the 10^22 that were attached. *)
Lemma scheduled_deposit_is_attached_scenario :
  scheduled_deposit
    (execute NearSdk.validateAccountId (scenario_env (10 ^ 22)) scenario_state
       (msg_create_factory_subaccount_and_deploy "sub" "bob.test" None))
  = 10 ^ 22.
Proof.
  apply (proj1 (scheduled_deposit_is_attached NearSdk.validateAccountId
                  (scenario_env (10 ^ 22)) scenario_state
                  (msg_create_factory_subaccount_and_deploy "sub" "bob.test" None))).
  vm_compute. discriminate.
Defined.

(** Scenario B with twice the deposit, sent by another account. *)
Lemma dispatch_monotone_in_deposit_scenario :
  exists p,
    status
      (execute NearSdk.validateAccountId
         (build_Env "factory.test" "carol.test" (2 * 10 ^ 22) "" [])
         scenario_state
         (msg_create_factory_subaccount_and_deploy "sub" "bob.test" None))
    = inr (ReturnPromise p).
Proof.
  apply (dispatch_monotone_in_deposit NearSdk.validateAccountId
           (scenario_env (10 ^ 22))
           (build_Env "factory.test" "carol.test" (2 * 10 ^ 22) "" [])).
  - reflexivity.
  - vm_compute. discriminate.
  - eexists. vm_compute. reflexivity.
Defined.

(** The factory stores a wasm header; a request then needs 8 * 10^19 and
    deploys the header. *)
Lemma update_then_provision_scenario :
  exists key_actions continuation,
    scheduled
      (execute NearSdk.validateAccountId (scenario_env (8 * 10 ^ 19))
         (state_after
            (execute NearSdk.validateAccountId
               (build_Env "factory.test" "factory.test" 0 wasm_header [])
               scenario_state msg_update_stored_contract))
         (msg_create_factory_subaccount_and_deploy "sub" "bob.test" None))
    = [("sub.factory.test",
        ([CreateAccount;
          Transfer (8 * 10 ^ 19);
          DeployContract wasm_header;
          FunctionCall "init" (SerializedInitArgs (build_DonationInitArgs "bob.test"))
            0 5000000000000] ++ key_actions)%list);
       continuation].
Proof.
  apply (proj1 (update_then_provision NearSdk.validateAccountId
                  (build_Env "factory.test" "factory.test" 0 wasm_header [])
                  (scenario_env (8 * 10 ^ 19)) scenario_state
                  "sub" "bob.test" None eq_refl eq_refl)).
  - vm_compute. discriminate.
  - reflexivity.
Defined.

(** With no code stored, a request without deposit is dispatched. *)
Lemma empty_code_needs_no_deposit_scenario :
  exists key_actions continuation,
    scheduled
      (execute NearSdk.validateAccountId (scenario_env 0) (build_HelloNear "")
         (msg_create_factory_subaccount_and_deploy "sub" "bob.test" None))
    = [("sub.factory.test",
        ([CreateAccount;
          Transfer 0;
          DeployContract "";
          FunctionCall "init" (SerializedInitArgs (build_DonationInitArgs "bob.test"))
            0 5000000000000] ++ key_actions)%list);
       continuation].
Proof.
  apply (proj2 (empty_code_needs_no_deposit NearSdk.validateAccountId
                  (scenario_env 0) (build_HelloNear "")
                  "sub" "bob.test" None)).
  - reflexivity.
  - reflexivity.
  - vm_compute. discriminate.
  - reflexivity.
Defined.

(** The record of scenario C is the one of the callback's failure branch. *)
Lemma only_callback_logs_scenario :
  exists args b,
    msg_create_factory_subaccount_and_deploy_callback scenario_callback_args
    = msg_create_factory_subaccount_and_deploy_callback args
    /\ status
         (execute NearSdk.validateAccountId (scenario_callback_env Failed)
            scenario_state
            (msg_create_factory_subaccount_and_deploy_callback
               scenario_callback_args))
       = inr (ReturnBool b)
    /\ logs_emitted
         (execute NearSdk.validateAccountId (scenario_callback_env Failed)
            scenario_state
            (msg_create_factory_subaccount_and_deploy_callback
               scenario_callback_args))
       = [if b
          then "Correctly created and deployed to " ++ account args
          else "Error creating " ++ account args ++ ", returning "
               ++ show_bigint (attached args) ++ "yⓃ to " ++ user args].
Proof.
  apply (proj1 (only_callback_logs NearSdk.validateAccountId
                  (scenario_callback_env Failed) scenario_state
                  (msg_create_factory_subaccount_and_deploy_callback
                     scenario_callback_args))).
  vm_compute. discriminate.
Defined.
